(** * Connector.jsx: the EIP-1193 wallet connector panel

    A shallow embedding of [src/components/Connector.jsx].  The component
    keeps four [useState] cells and offers five click handlers, two
    provider notification handlers and a pure lookup.  Every handler is a
    straight-line [async] function, so it is embedded as a finite tree of
    effects ([Async]) whose [Await] nodes are the calls of
    [provider.request]; the tree is then given two semantics: [run], which
    lets a wallet answer every request at once, and [step], in which
    suspended handlers interleave with clicks and notifications. *)

From Stdlib Require Import String List Bool ZArith Lia.
Import ListNotations.
Local Open Scope string_scope.
Local Open Scope list_scope.

(** ** The provider's request vocabulary *)

Module Rpc.

(** [nativeCurrency] of [wallet_addEthereumChain]. *)
Record NativeCurrency := {
  name : string;
  symbol : string;
  decimals : Z
}.

(** The object passed to [wallet_addEthereumChain]. *)
Record AddEthereumChainParameter := {
  chainId : string;
  chainName : string;
  rpcUrls : list string;
  nativeCurrency : NativeCurrency;
  blockExplorerUrls : list string
}.

(** The object passed to [eth_sendTransaction]; [from] is [accounts[0]],
    which JavaScript evaluates to [undefined] ([None]) on an empty
    array. *)
Record Transaction := {
  from : option string;
  to : string;
  value : string
}.

(** [provider.request({ method, params })]. *)
Inductive Request :=
| eth_requestAccounts
| eth_chainId
| wallet_switchEthereumChain (chainId : string)
| wallet_addEthereumChain (params : AddEthereumChainParameter)
| eth_sendTransaction (tx : Transaction).

(** What the promise of a request resolves to. *)
Definition Answer (r : Request) : Type :=
  match r with
  | eth_requestAccounts => list string
  | eth_chainId => string
  | wallet_switchEthereumChain _ => unit
  | wallet_addEthereumChain _ => unit
  | eth_sendTransaction _ => string
  end.

(** A rejection: a message and, optionally, a numeric code.  Rejections
    are error objects, as EIP-1193 has them; a promise rejected with
    [null] or [undefined], on which reading [error.code] (line 91) throws,
    is not represented. *)
Record ProviderError := {
  code : option Z;
  message : string
}.

Inductive Settled (A : Type) :=
| Fulfilled (v : A)
| Rejected (e : ProviderError).
Arguments Fulfilled {A} v.
Arguments Rejected {A} e.

End Rpc.
Import Rpc.

(** The injected object: [window.ethereum].  Its answers are not part of
    the handle; they are supplied by the environment ([Wallet], [step]). *)
Inductive Provider := window_ethereum.

(** ** Component state: the four [useState] cells *)

Record State := {
  provider : option Provider;
  accounts : list string;
  chainId : string;
  isConnected : bool
}.

(** [useState(null)], [useState([])], [useState('')], [useState(false)]. *)
Definition initial : State :=
  {| provider := None; accounts := []; chainId := ""; isConnected := false |}.

(** The view state of the specification: account list, chain identifier
    and connection flag. *)
Definition view (s : State) : list string * string * bool :=
  (accounts s, chainId s, isConnected s).

Definition MAINNET_CHAIN_ID : string := "0x1".
Definition SEPOLIA_CHAIN_ID : string := "0xaa36a7".

(** ** Effects and the [Async] tree *)

(** Arguments printed by [console.log]. *)
Inductive JsValue :=
| Str (s : string)
| Arr (l : list string)
| Err (e : ProviderError).

Inductive Effect :=
| setProvider (v : Provider)
| setAccounts (v : list string)
| setChainId (v : string)
| setIsConnected (v : bool)
| console_log (args : list JsValue).

(** The body of a handler: it returns, throws, performs an effect, or
    awaits the promise of a provider request. *)
Inductive Async (A : Type) : Type :=
| Ret (a : A)
| Throw (e : ProviderError)
| Do (e : Effect) (k : Async A)
| Await (r : Request) (k : Settled (Answer r) -> Async A).
Arguments Ret {A} a.
Arguments Throw {A} e.
Arguments Do {A} e k.
Arguments Await {A} r k.

Fixpoint bind {A B : Type} (m : Async A) (f : A -> Async B) : Async B :=
  match m with
  | Ret a => f a
  | Throw e => Throw e
  | Do e k => Do e (bind k f)
  | Await r k => Await r (fun o => bind (k o) f)
  end.

(** [try { m } catch (error) { h error }]. *)
Fixpoint try_catch {A : Type} (m : Async A) (h : ProviderError -> Async A)
  : Async A :=
  match m with
  | Ret a => Ret a
  | Throw e => h e
  | Do e k => Do e (try_catch k h)
  | Await r k => Await r (fun o => try_catch (k o) h)
  end.

(** [await provider.request(r)]: a rejected promise throws. *)
Definition request (r : Request) : Async (Answer r) :=
  Await r (fun o =>
    match o with
    | Fulfilled v => Ret v
    | Rejected e => Throw e
    end).

Definition perform (e : Effect) : Async unit := Do e (Ret tt).

Declare Scope async_scope.
Delimit Scope async_scope with async.
Notation "x <- m ;; k" := (bind m (fun x => k))
  (at level 61, m at next level, right associativity) : async_scope.
Notation "m ;; k" := (bind m (fun _ => k))
  (at level 61, right associativity) : async_scope.
Notation "'try' m 'catch' x => h" := (try_catch m (fun x => h))
  (at level 10, m at level 200, x name, h at level 200) : async_scope.
Local Open Scope async_scope.

(** ** The component's functions *)

(** First effect (lines 12-16): [if (window.ethereum) setProvider(...)]. *)
Definition mountEffect (ethereum : option Provider) : Async unit :=
  match ethereum with
  | Some p => perform (setProvider p)
  | None => Ret tt
  end.

(** Lines 23-32. *)
Definition handleAccountsChanged (accounts : list string) : Async unit :=
  perform (console_log [Str "Accounts changed:"; Arr accounts]) ;;
  if (0 <? length accounts)%nat then
    perform (setAccounts accounts) ;;
    perform (setIsConnected true)
  else
    perform (setAccounts []) ;;
    perform (setIsConnected false).

(** Lines 34-37. *)
Definition handleChainChanged (chainId : string) : Async unit :=
  perform (console_log [Str "Chain changed:"; Str chainId]) ;;
  perform (setChainId chainId).

(** Lines 53-72. *)
Definition connect (s : State) : Async unit :=
  match provider s with
  | None => Ret tt
  | Some _ =>
    try
      result <- request eth_requestAccounts ;;
      perform (setAccounts result) ;;
      perform (setIsConnected true) ;;
      currentChainId <- request eth_chainId ;;
      perform (setChainId currentChainId) ;;
      perform (console_log [Str "Connected:"; Arr result])
    catch error =>
      perform (console_log [Str "Connection error:"; Err error])
  end.

(** [error.code === n]; a rejection without a code has [undefined]
    there. *)
Definition code_is (error : ProviderError) (n : Z) : bool :=
  match code error with
  | Some c => (c =? n)%Z
  | None => false
  end.

(** Lines 75-95. *)
Definition toggleChain (s : State) : Async unit :=
  match provider s with
  | None => Ret tt
  | Some _ =>
    try
      let targetChainId :=
        if chainId s =? SEPOLIA_CHAIN_ID then MAINNET_CHAIN_ID
        else SEPOLIA_CHAIN_ID in
      request (wallet_switchEthereumChain targetChainId) ;;
      perform (console_log
        [Str ("Switching to " ++
              (if targetChainId =? MAINNET_CHAIN_ID then "Ethereum Mainnet"
               else "Sepolia Testnet"))])
    catch error =>
      perform (console_log [Str "Error switching chain:"; Err error]) ;;
      if code_is error 4902 then
        perform (console_log [Str "Chain not available, please add it first"])
      else Ret tt
  end.

(** The network definition of lines 105-115. *)
Definition mantle : AddEthereumChainParameter :=
  {| Rpc.chainId := "0x1388";
     chainName := "Mantle";
     rpcUrls := ["https://rpc.mantle.xyz"];
     nativeCurrency := {| name := "Mantle"; symbol := "MNT"; decimals := 18 |};
     blockExplorerUrls := ["https://mantlescan.xyz"] |}.

(** Lines 98-122. *)
Definition addChain (s : State) : Async unit :=
  match provider s with
  | None => Ret tt
  | Some _ =>
    try
      request (wallet_addEthereumChain mantle) ;;
      perform (console_log [Str "Mantle network added"])
    catch error =>
      perform (console_log [Str "Error adding chain:"; Err error])
  end.

(** Lines 125-146. *)
Definition transferAccount (s : State) : Async unit :=
  match provider s with
  | None => Ret tt
  | Some _ =>
    if (length (accounts s) =? 0)%nat then Ret tt
    else if negb (chainId s =? SEPOLIA_CHAIN_ID) then
      perform (console_log [Str "Please switch to Sepolia network first"])
    else
      try
        tx <- request (eth_sendTransaction
                {| from := nth_error (accounts s) 0;
                   to := "0x5b522A979ea2a5121b651756CD4274C92386f8C2";
                   value := "0x38D7EA4C68000" |}) ;;
        perform (console_log [Str "Transaction sent:"; Str tx])
      catch error =>
        perform (console_log [Str "Transaction error:"; Err error])
  end.

(** Lines 149-157. *)
Definition disconnect (s : State) : Async unit :=
  match provider s with
  | None => Ret tt
  | Some _ =>
    perform (setAccounts []) ;;
    perform (setChainId "") ;;
    perform (setIsConnected false) ;;
    perform (console_log [Str "Disconnected"])
  end.

(** Lines 159-170. *)
Definition getNetworkName (id : string) : string :=
  if id =? MAINNET_CHAIN_ID then "Ethereum Mainnet"
  else if id =? SEPOLIA_CHAIN_ID then "Sepolia Testnet"
  else if id =? "0x1388" then "Mantle"
  else "Unknown Network".

(** ** Semantics *)

(** What an observer sees: the four cells, the requests sent to the
    provider so far and the lines written to the console. *)
Record World := {
  state : State;
  requested : list Request;
  console : list (list JsValue)
}.

Definition boot (s : State) : World :=
  {| state := s; requested := []; console := [] |}.

Definition write (f : State -> State) (w : World) : World :=
  {| state := f (state w); requested := requested w; console := console w |}.

Definition effect (e : Effect) (w : World) : World :=
  match e with
  | setProvider v =>
    write (fun s => {| provider := Some v; accounts := accounts s;
                       chainId := chainId s; isConnected := isConnected s |}) w
  | setAccounts v =>
    write (fun s => {| provider := provider s; accounts := v;
                       chainId := chainId s; isConnected := isConnected s |}) w
  | setChainId v =>
    write (fun s => {| provider := provider s; accounts := accounts s;
                       chainId := v; isConnected := isConnected s |}) w
  | setIsConnected v =>
    write (fun s => {| provider := provider s; accounts := accounts s;
                       chainId := chainId s; isConnected := v |}) w
  | console_log args =>
    {| state := state w; requested := requested w;
       console := console w ++ [args] |}
  end.

Definition send (r : Request) (w : World) : World :=
  {| state := state w; requested := requested w ++ [r]; console := console w |}.

(** How an [async] function ends: its promise is fulfilled, or rejected by
    an exception nothing caught. *)
Inductive Completion (A : Type) :=
| Normal (a : A)
| Uncaught (e : ProviderError).
Arguments Normal {A} a.
Arguments Uncaught {A} e.

(** A wallet answers every request it is sent. *)
Definition Wallet : Type := forall r : Request, Settled (Answer r).

(** Run a handler to its end against a wallet. *)
Fixpoint run {A : Type} (wallet : Wallet) (m : Async A) (w : World)
  : Completion A * World :=
  match m with
  | Ret a => (Normal a, w)
  | Throw e => (Uncaught e, w)
  | Do e k => run wallet k (effect e w)
  | Await r k => run wallet (k (wallet r)) (send r w)
  end.

(** Run a handler up to its next [await]. *)
Inductive Paused (A : Type) :=
| Finished (c : Completion A)
| Suspended (r : Request) (k : Settled (Answer r) -> Async A).
Arguments Finished {A} c.
Arguments Suspended {A} r k.

Fixpoint advance {A : Type} (m : Async A) (w : World) : Paused A * World :=
  match m with
  | Ret a => (Finished (Normal a), w)
  | Throw e => (Finished (Uncaught e), w)
  | Do e k => advance k (effect e w)
  | Await r k => (Suspended r k, send r w)
  end.

(** *** The panel as a transition system *)

Inductive Action :=
| Connect
| ToggleChain
| AddChain
| TransferAccount
| Disconnect.

(** The [onClick] handlers of lines 178-187, closed over the state of the
    render that created them. *)
Definition onClick (a : Action) : State -> Async unit :=
  match a with
  | Connect => connect
  | ToggleChain => toggleChain
  | AddChain => addChain
  | TransferAccount => transferAccount
  | Disconnect => disconnect
  end.

(** What caused a handler to run. *)
Inductive Origin :=
| Mount
| Click (a : Action)
| AccountsChanged
| ChainChanged.

(** A handler waiting for the provider. *)
Record Pending := {
  origin : Origin;
  awaiting : Request;
  resume : Settled (Answer awaiting) -> Async unit
}.

Record Panel := {
  world : World;
  mounted : bool;
  inflight : list Pending
}.

Definition start : Panel :=
  {| world := boot initial; mounted := false; inflight := [] |}.

(** Run [m] on the panel up to its next [await]. *)
Definition launch (o : Origin) (m : Async unit) (p : Panel) : Panel :=
  match advance m (world p) with
  | (Finished _, w) =>
    {| world := w; mounted := mounted p; inflight := inflight p |}
  | (Suspended r k, w) =>
    {| world := w; mounted := mounted p;
       inflight :=
         inflight p ++ [{| origin := o; awaiting := r; resume := k |}] |}
  end.

(** One turn of the event loop.  The label names the origin of the code
    that ran. *)
Inductive step : Panel -> Origin -> Panel -> Prop :=
| step_mount p ethereum :
    mounted p = false ->
    step p Mount
      (launch Mount (mountEffect ethereum)
         {| world := world p; mounted := true; inflight := inflight p |})
| step_click p a :
    step p (Click a) (launch (Click a) (onClick a (state (world p))) p)
| step_accountsChanged p h payload :
    provider (state (world p)) = Some h ->
    step p AccountsChanged
      (launch AccountsChanged (handleAccountsChanged payload) p)
| step_chainChanged p h payload :
    provider (state (world p)) = Some h ->
    step p ChainChanged (launch ChainChanged (handleChainChanged payload) p)
| step_settle p before q after (o : Settled (Answer (awaiting q))) :
    inflight p = before ++ q :: after ->
    step p (origin q)
      (launch (origin q) (resume q o)
         {| world := world p; mounted := mounted p;
            inflight := before ++ after |}).

Inductive reachable : Panel -> Prop :=
| reachable_start : reachable start
| reachable_step p o q : reachable p -> step p o q -> reachable q.

(** ** Predicates used by the statements *)

(** The invariant of the data model: the connection flag is true exactly
    when the account list is non-empty. *)
Definition in_sync (s : State) : Prop :=
  isConnected s = true <-> accounts s <> [].

(** A handler body that touches no [useState] cell: it only logs and
    awaits. *)
Inductive Quiet {A : Type} : Async A -> Prop :=
| Quiet_Ret a : Quiet (Ret a)
| Quiet_Throw e : Quiet (Throw e)
| Quiet_log args k : Quiet k -> Quiet (Do (console_log args) k)
| Quiet_Await r k : (forall o, Quiet (k o)) -> Quiet (Await r k).

(** Every handler in flight that was not started by [connect] is quiet. *)
Definition quiet_unless_connect (q : Pending) : Prop :=
  origin q = Click Connect \/ forall o, Quiet (resume q o).

(** The preconditions of [transferAccount], in the words of the
    specification. *)
Definition may_transfer (s : State) : Prop :=
  provider s <> None /\ accounts s <> [] /\ chainId s = "0xaa36a7".

(** The one transaction [transferAccount] asks for. *)
Definition transfer_from (account : string) : Request :=
  eth_sendTransaction
    {| from := Some account;
       to := "0x5b522A979ea2a5121b651756CD4274C92386f8C2";
       value := "0x38D7EA4C68000" |}.

(** [connect()] fails: the account request is rejected, or it is granted
    and the chain identifier request that follows is rejected. *)
Definition connect_fails (wallet : Wallet) : Prop :=
  (exists e, wallet eth_requestAccounts = Rejected e) \/
  (exists result e,
     wallet eth_requestAccounts = Fulfilled result /\
     wallet eth_chainId = Rejected e).

(** *** Sample wallets and states *)

Definition userRejected : ProviderError :=
  {| code := Some 4001%Z; message := "User rejected the request." |}.

(** A wallet that grants everything. *)
Definition granting (accts : list string) (chain : string) : Wallet :=
  fun r =>
    match r with
    | eth_requestAccounts => Fulfilled accts
    | eth_chainId => Fulfilled chain
    | wallet_switchEthereumChain _ => Fulfilled tt
    | wallet_addEthereumChain _ => Fulfilled tt
    | eth_sendTransaction _ => Fulfilled "0x88df01"
    end.

(** A wallet that rejects everything. *)
Definition refusing (e : ProviderError) : Wallet :=
  fun r =>
    match r with
    | eth_requestAccounts => Rejected e
    | eth_chainId => Rejected e
    | wallet_switchEthereumChain _ => Rejected e
    | wallet_addEthereumChain _ => Rejected e
    | eth_sendTransaction _ => Rejected e
    end.

(** A wallet that grants the accounts and then fails on [eth_chainId]. *)
Definition failing_chainId (accts : list string) (e : ProviderError) : Wallet :=
  fun r =>
    match r with
    | eth_chainId => Rejected e
    | other => granting accts "" other
    end.

Definition alice : string := "0x52908400098527886E0F7030069857D2E4169EE7".

(** The panel's state right after a provider was found. *)
Definition detected : State :=
  {| provider := Some window_ethereum; accounts := []; chainId := "";
     isConnected := false |}.

Definition on_sepolia : State :=
  {| provider := Some window_ethereum; accounts := [alice];
     chainId := SEPOLIA_CHAIN_ID; isConnected := true |}.

(** The panel once the first effect has found [window.ethereum]. *)
Definition ready : Panel :=
  {| world := boot detected; mounted := true; inflight := [] |}.

(** ** What the panel shows (lines 172-200) *)

(** The block under "Connection Details": [accounts[0]],
    [getNetworkName(chainId)] and [chainId]. *)
Record Details := {
  connectedAccount : option string;
  networkName : string;
  networkId : string
}.

(** The parts of the JSX that depend on the state: the label of the
    toggle button and the details block, which [isConnected && ...]
    leaves out when the flag is false. *)
Record Rendered := {
  toggleLabel : string;
  details : option Details
}.

Definition render (s : State) : Rendered :=
  {| toggleLabel :=
       if chainId s =? SEPOLIA_CHAIN_ID then "Switch to Ethereum"
       else "Switch to Sepolia";
     details :=
       if isConnected s then
         Some {| connectedAccount := nth_error (accounts s) 0;
                 networkName := getNetworkName (chainId s);
                 networkId := chainId s |}
       else None |}.

(** ** Further predicates *)

(** The error objects printed on some console lines. *)
Definition errors_of (lines : list (list JsValue)) : list ProviderError :=
  flat_map
    (flat_map (fun v => match v with Err e => [e] | _ => [] end)) lines.

(** The rejections a wallet answers a list of requests with. *)
Definition rejections (wallet : Wallet) (sent : list Request)
  : list ProviderError :=
  flat_map
    (fun r => match wallet r with
              | Rejected e => [e]
              | Fulfilled _ => []
              end) sent.

(** The requests the source can build. *)
Definition Allowed (r : Request) : Prop :=
  match r with
  | eth_requestAccounts => True
  | eth_chainId => True
  | wallet_switchEthereumChain target =>
    target = MAINNET_CHAIN_ID \/ target = SEPOLIA_CHAIN_ID
  | wallet_addEthereumChain params => params = mantle
  | eth_sendTransaction tx => exists account, r = transfer_from account
  end.

(** One turn of a handler keeps [I]. *)
Definition preserves {A : Type} (I : World -> Prop) (m : Async A) : Prop :=
  forall w, I w -> I (snd (advance m w)).

(** Every later turn of a handler keeps [I], whatever the provider
    answers and whatever happened while the handler waited. *)
Fixpoint stable {A : Type} (I : World -> Prop) (m : Async A) : Prop :=
  match m with
  | Ret _ => True
  | Throw _ => True
  | Do _ k => stable I k
  | Await r k => forall o, preserves I (k o) /\ stable I (k o)
  end.

Definition keeps {A : Type} (I : World -> Prop) (m : Async A) : Prop :=
  preserves I m /\ stable I m.

(** Handlers in flight that keep [Inv] in every turn still to come. *)
Definition inflight_keep (Inv : World -> Prop) (p : Panel) : Prop :=
  Forall (fun q => forall o, keeps Inv (resume q o)) (inflight p).

(** The half of [in_sync] that survives every interleaving: a listed
    account implies the flag. *)
Definition listed_implies_connected (w : World) : Prop :=
  accounts (state w) <> [] -> isConnected (state w) = true.

(** ** General facts about the semantics *)

Section Semantics.

Context {A : Type}.
Variable wallet : Wallet.

(** [run] is [advance] followed, at an [await], by the wallet's answer. *)
Lemma run_advance (m : Async A) (w : World) :
  run wallet m w =
  match advance m w with
  | (Finished c, w') => (c, w')
  | (Suspended r k, w') => run wallet (k (wallet r)) w'
  end.
Proof.
  revert w. induction m as [a | e | e k IH | r k _]; intros w; simpl;
    [reflexivity | reflexivity | apply IH | reflexivity].
Qed.

(** A quiet body leaves the four cells alone, however the wallet
    answers. *)
Lemma Quiet_run (m : Async A) :
  Quiet m -> forall w, state (snd (run wallet m w)) = state w.
Proof.
  induction 1 as [a | e | args k _ IH | r k _ IH]; intros w; simpl.
  - reflexivity.
  - reflexivity.
  - rewrite IH. reflexivity.
  - rewrite IH. reflexivity.
Qed.

Lemma Quiet_advance (m : Async A) :
  Quiet m -> forall w,
  state (snd (advance m w)) = state w /\
  match fst (advance m w) with
  | Finished _ => True
  | Suspended r k => forall o, Quiet (k o)
  end.
Proof.
  induction 1 as [a | e | args k _ IH | r k Hk _]; intros w; simpl.
  - split; [reflexivity | exact I].
  - split; [reflexivity | exact I].
  - destruct (IH (effect (console_log args) w)) as [Hs Hp].
    split; [exact Hs | exact Hp].
  - split; [reflexivity | exact Hk].
Qed.

(** Requests are only ever added to the record of what was sent. *)
Lemma run_requested (m : Async A) (w : World) :
  exists sent, requested (snd (run wallet m w)) = requested w ++ sent.
Proof.
  revert w. induction m as [a | e | e k IH | r k IH]; intros w; simpl.
  - exists []. rewrite app_nil_r. reflexivity.
  - exists []. rewrite app_nil_r. reflexivity.
  - destruct (IH (effect e w)) as [sent Hs]. exists sent.
    rewrite Hs. destruct e; reflexivity.
  - destruct (IH (wallet r) (send r w)) as [sent Hs]. exists (r :: sent).
    rewrite Hs. simpl. rewrite <- app_assoc. reflexivity.
Qed.

End Semantics.

Section QuietBodies.

Lemma Quiet_bind {A B : Type} (m : Async A) (f : A -> Async B) :
  Quiet m -> (forall a, Quiet (f a)) -> Quiet (bind m f).
Proof.
  intros Hm Hf. induction Hm; simpl; auto using @Quiet.
Qed.

Lemma Quiet_try_catch {A : Type} (m : Async A) (h : ProviderError -> Async A) :
  Quiet m -> (forall e, Quiet (h e)) -> Quiet (try_catch m h).
Proof.
  intros Hm Hh. induction Hm; simpl; auto using @Quiet.
Qed.

Lemma Quiet_request (r : Request) : Quiet (request r).
Proof.
  apply Quiet_Await. intros [v | e]; constructor.
Qed.

Lemma Quiet_console_log (args : list JsValue) :
  Quiet (perform (console_log args)).
Proof.
  repeat constructor.
Qed.

End QuietBodies.

Create HintDb quiet.
#[local] Hint Resolve Quiet_bind Quiet_try_catch Quiet_request
  Quiet_console_log : quiet.
#[local] Hint Constructors Quiet : quiet.

Lemma Quiet_toggleChain (s : State) : Quiet (toggleChain s).
Proof.
  unfold toggleChain. destruct (provider s); [| constructor].
  apply Quiet_try_catch; [auto with quiet |].
  intros e. apply Quiet_bind; [auto with quiet |].
  intros _. destruct (code_is e 4902); auto with quiet.
Qed.

Lemma Quiet_addChain (s : State) : Quiet (addChain s).
Proof.
  unfold addChain. destruct (provider s); auto with quiet.
Qed.

Lemma Quiet_transferAccount (s : State) : Quiet (transferAccount s).
Proof.
  unfold transferAccount. destruct (provider s); [| constructor].
  destruct (length (accounts s) =? 0)%nat; [constructor |].
  destruct (negb (chainId s =? SEPOLIA_CHAIN_ID)); auto with quiet.
Qed.

(** ** The lookup and the notification handlers *)

(** C6: [getNetworkName] maps "0x1" to "Ethereum Mainnet", "0xaa36a7" to
    "Sepolia Testnet", "0x1388" to "Mantle", and every other string, the
    empty one included, to "Unknown Network".  It is a function from
    strings to strings: it is defined on every input and has no access to
    the state of the panel. *)
Theorem getNetworkName_labels (id : string) :
  getNetworkName "0x1" = "Ethereum Mainnet" /\
  getNetworkName "0xaa36a7" = "Sepolia Testnet" /\
  getNetworkName "0x1388" = "Mantle" /\
  getNetworkName "" = "Unknown Network" /\
  (id <> "0x1" -> id <> "0xaa36a7" -> id <> "0x1388" ->
   getNetworkName id = "Unknown Network").
Proof.
  repeat split; try reflexivity.
  intros H1 H2 H3. unfold getNetworkName, MAINNET_CHAIN_ID, SEPOLIA_CHAIN_ID.
  apply String.eqb_neq in H1, H2, H3.
  rewrite H1, H2, H3. reflexivity.
Qed.

Lemma getNetworkName_labels_witness :
  getNetworkName "0x89" = "Unknown Network".
Proof.
  apply (getNetworkName_labels "0x89"); intros H; discriminate H.
Defined.

(** C5: whatever the state before, an accounts-changed notification with
    an empty payload leaves the account list empty and the flag false; one
    with a non-empty payload stores the payload and sets the flag. *)
Theorem handleAccountsChanged_sets_both (wallet : Wallet) (w : World) :
  (let w' := snd (run wallet (handleAccountsChanged []) w) in
   accounts (state w') = [] /\ isConnected (state w') = false) /\
  (forall a rest,
   let w' := snd (run wallet (handleAccountsChanged (a :: rest)) w) in
   accounts (state w') = a :: rest /\ isConnected (state w') = true).
Proof.
  split; [| intros a rest]; simpl; split; reflexivity.
Qed.

(** ** toggleChain *)

Lemma toggleChain_requested (wallet : Wallet) (w : World) (h : Provider) :
  provider (state w) = Some h ->
  requested (snd (run wallet (toggleChain (state w)) w)) =
  requested w ++
  [wallet_switchEthereumChain
     (if chainId (state w) =? SEPOLIA_CHAIN_ID then MAINNET_CHAIN_ID
      else SEPOLIA_CHAIN_ID)].
Proof.
  intros Hp. unfold toggleChain. rewrite Hp. simpl.
  destruct (wallet _) as [[] | e]; simpl; [reflexivity |].
  destruct (code_is e 4902); reflexivity.
Qed.

(** C4: with a provider present, [toggleChain] asks for "0x1" when the
    stored identifier is "0xaa36a7", for "0xaa36a7" when it is "0x1", and
    for "0xaa36a7" when it is neither, the empty string included; that
    request is the only one it sends. *)
Theorem toggleChain_target (wallet : Wallet) (w : World) (h : Provider) :
  provider (state w) = Some h ->
  let sent := requested (snd (run wallet (toggleChain (state w)) w)) in
  (chainId (state w) = "0xaa36a7" ->
   sent = requested w ++ [wallet_switchEthereumChain "0x1"]) /\
  (chainId (state w) = "0x1" ->
   sent = requested w ++ [wallet_switchEthereumChain "0xaa36a7"]) /\
  (chainId (state w) <> "0xaa36a7" -> chainId (state w) <> "0x1" ->
   sent = requested w ++ [wallet_switchEthereumChain "0xaa36a7"]) /\
  (chainId (state w) = "" ->
   sent = requested w ++ [wallet_switchEthereumChain "0xaa36a7"]).
Proof.
  intros Hp sent. subst sent. rewrite (toggleChain_requested wallet w h Hp).
  unfold SEPOLIA_CHAIN_ID, MAINNET_CHAIN_ID.
  repeat split.
  - intros ->. reflexivity.
  - intros ->. reflexivity.
  - intros Hs _. apply String.eqb_neq in Hs. rewrite Hs. reflexivity.
  - intros ->. reflexivity.
Qed.

Lemma toggleChain_target_witness :
  requested (snd (run (granting [alice] "0xaa36a7")
                      (toggleChain on_sepolia) (boot on_sepolia))) =
  [wallet_switchEthereumChain "0x1"].
Proof.
  apply (toggleChain_target (granting [alice] "0xaa36a7") (boot on_sepolia)
           window_ethereum); reflexivity.
Defined.

(** ** transferAccount *)

Lemma transferAccount_requested (wallet : Wallet) (w : World) :
  requested (snd (run wallet (transferAccount (state w)) w)) =
  requested w ++
  match provider (state w), accounts (state w) with
  | Some _, first :: _ =>
    if chainId (state w) =? SEPOLIA_CHAIN_ID then [transfer_from first]
    else []
  | _, _ => []
  end.
Proof.
  unfold transferAccount.
  destruct (provider (state w)); [| simpl; rewrite app_nil_r; reflexivity].
  destruct (accounts (state w)) as [| first rest];
    [simpl; rewrite app_nil_r; reflexivity |].
  simpl. destruct (chainId (state w) =? SEPOLIA_CHAIN_ID); simpl.
  - destruct (wallet _); reflexivity.
  - rewrite app_nil_r. reflexivity.
Qed.

(** C3: [transferAccount] sends a request exactly when a provider handle
    exists, the account list is non-empty and the stored chain identifier
    is "0xaa36a7"; it then sends one request, a transaction from the first
    account to the fixed recipient for the fixed value. *)
Theorem transferAccount_sends (wallet : Wallet) (w : World) :
  exists sent,
    requested (snd (run wallet (transferAccount (state w)) w)) =
    requested w ++ sent /\
    (sent <> [] <-> may_transfer (state w)) /\
    (may_transfer (state w) ->
     exists first rest,
       accounts (state w) = first :: rest /\
       sent =
       [eth_sendTransaction
          {| from := Some first;
             to := "0x5b522A979ea2a5121b651756CD4274C92386f8C2";
             value := "0x38D7EA4C68000" |}]).
Proof.
  eexists. split; [apply transferAccount_requested |].
  unfold may_transfer, SEPOLIA_CHAIN_ID.
  destruct (provider (state w)) as [h |].
  2:{ split; [split; [congruence | intros [H _]; congruence]
             | intros [H _]; congruence]. }
  destruct (accounts (state w)) as [| first rest].
  { split; [split; [congruence | intros (_ & H & _); congruence]
           | intros (_ & H & _); congruence]. }
  destruct (chainId (state w) =? "0xaa36a7") eqn:Hc.
  - apply String.eqb_eq in Hc. split.
    + split; [intros _; repeat split; congruence | intros _; discriminate].
    + intros _. exists first, rest. split; reflexivity.
  - apply String.eqb_neq in Hc. split.
    + split; [congruence | intros (_ & _ & H); congruence].
    + intros (_ & _ & H). congruence.
Qed.

Lemma transferAccount_sends_witness :
  may_transfer on_sepolia /\
  requested (snd (run (refusing userRejected) (transferAccount on_sepolia)
                      (boot on_sepolia))) = [transfer_from alice].
Proof.
  assert (H : may_transfer on_sepolia)
    by (repeat split; intros E; discriminate E).
  destruct (transferAccount_sends (refusing userRejected) (boot on_sepolia))
    as (sent & Hs & _ & Hone).
  destruct (Hone H) as (first & rest & Ha & ->).
  injection Ha as <- _.
  split; [exact H | exact Hs].
Defined.

(** C9: [transferAccount] never writes a [useState] cell, whether it
    returns early, the transaction is accepted or it is rejected; it
    sends at most one request and otherwise only logs. *)
Theorem transferAccount_frame (wallet : Wallet) (w : World) :
  let w' := snd (run wallet (transferAccount (state w)) w) in
  state w' = state w /\
  exists sent, requested w' = requested w ++ sent /\ length sent <= 1.
Proof.
  split.
  - apply Quiet_run, Quiet_transferAccount.
  - eexists. split; [apply transferAccount_requested |].
    destruct (provider (state w)); [| simpl; lia].
    destruct (accounts (state w)); [simpl; lia |].
    destruct (chainId (state w) =? SEPOLIA_CHAIN_ID); simpl; lia.
Qed.

(** ** connect *)

Lemma connect_rejected (wallet : Wallet) (w : World) (e : ProviderError) :
  wallet eth_requestAccounts = Rejected e ->
  state (snd (run wallet (connect (state w)) w)) = state w.
Proof.
  intros He. unfold connect. destruct (provider (state w)); [| reflexivity].
  simpl. rewrite He. reflexivity.
Qed.

Lemma connect_granted (wallet : Wallet) (w : World) (h : Provider)
    (result : list string) :
  provider (state w) = Some h ->
  wallet eth_requestAccounts = Fulfilled result ->
  state (snd (run wallet (connect (state w)) w)) =
  {| provider := Some h;
     accounts := result;
     chainId := match wallet eth_chainId with
                | Fulfilled currentChainId => currentChainId
                | Rejected _ => chainId (state w)
                end;
     isConnected := true |}.
Proof.
  intros Hp Hr. unfold connect. rewrite Hp. simpl. rewrite Hr. simpl.
  destruct (wallet eth_chainId); simpl; rewrite Hp; reflexivity.
Qed.

(** C2, as the code has it: when the account request is rejected,
    [connect] leaves every cell as it was.  When the account request is
    granted a non-empty list and the chain identifier request that
    follows is rejected, the account list already holds the granted
    accounts and the flag is already true; only the chain identifier is
    as before. *)
Theorem connect_failure_effect (wallet : Wallet) (w : World) :
  let w' := snd (run wallet (connect (state w)) w) in
  (forall e, wallet eth_requestAccounts = Rejected e -> state w' = state w) /\
  (forall h result e,
     provider (state w) = Some h ->
     result <> [] ->
     wallet eth_requestAccounts = Fulfilled result ->
     wallet eth_chainId = Rejected e ->
     accounts (state w') = result /\
     isConnected (state w') = true /\
     chainId (state w') = chainId (state w) /\
     provider (state w') = provider (state w)).
Proof.
  split.
  - intros e. apply connect_rejected.
  - intros h result e Hp _ Hr Hc.
    rewrite (connect_granted wallet w h result Hp Hr), Hc, Hp. simpl.
    repeat split; reflexivity.
Qed.

Lemma connect_failure_effect_witness :
  state (snd (run (refusing userRejected) (connect on_sepolia)
                  (boot on_sepolia))) = on_sepolia /\
  view (state (snd (run (failing_chainId [alice] userRejected)
                        (connect detected) (boot detected)))) =
  ([alice], "", true).
Proof.
  split.
  - apply (connect_failure_effect (refusing userRejected) (boot on_sepolia))
      with (e := userRejected).
    reflexivity.
  - destruct (connect_failure_effect (failing_chainId [alice] userRejected)
                (boot detected)) as [_ H].
    assert (Hne : [alice] <> []) by discriminate.
    destruct (H window_ethereum [alice] userRejected eq_refl Hne eq_refl
                eq_refl) as (Ha & Hi & Hc & _).
    exact (f_equal2 pair (f_equal2 pair Ha Hc) Hi).
Defined.

(** C2, as stated, fails: a wallet that grants the accounts and then
    rejects the chain identifier request leaves the panel connected. *)
Lemma connect_failure_not_atomic :
  ~ (forall (wallet : Wallet) (w : World),
       connect_fails wallet ->
       view (state (snd (run wallet (connect (state w)) w))) = view (state w)).
Proof.
  intros H.
  specialize (H (failing_chainId [alice] userRejected) (boot detected)).
  assert (Hf : connect_fails (failing_chainId [alice] userRejected))
    by (right; exists [alice], userRejected; split; reflexivity).
  specialize (H Hf). discriminate H.
Qed.

(** ** The connection flag and the account list *)

(** Handlers that keep flag and list in step. *)
Lemma in_sync_handleAccountsChanged (wallet : Wallet) (payload : list string)
    (w : World) :
  in_sync (state (snd (run wallet (handleAccountsChanged payload) w))).
Proof.
  destruct payload as [| a rest]; simpl; unfold in_sync; simpl;
    split; congruence.
Qed.

Lemma in_sync_handleChainChanged (wallet : Wallet) (payload : string)
    (w : World) :
  in_sync (state w) ->
  in_sync (state (snd (run wallet (handleChainChanged payload) w))).
Proof.
  intros H. exact H.
Qed.

Lemma in_sync_disconnect (wallet : Wallet) (w : World) :
  in_sync (state w) ->
  in_sync (state (snd (run wallet (disconnect (state w)) w))).
Proof.
  intros H. unfold disconnect. destruct (provider (state w)); [| exact H].
  simpl. unfold in_sync. simpl. split; congruence.
Qed.

(** [connect] keeps them in step as long as the wallet does not grant an
    empty list. *)
Lemma in_sync_connect (wallet : Wallet) (w : World) :
  wallet eth_requestAccounts <> Fulfilled [] ->
  in_sync (state w) ->
  in_sync (state (snd (run wallet (connect (state w)) w))).
Proof.
  intros Hne H. destruct (provider (state w)) as [h |] eqn:Hp.
  - destruct (wallet eth_requestAccounts) as [result | e] eqn:Hr.
    + rewrite (connect_granted wallet w h result Hp Hr).
      unfold in_sync. simpl. split; [| reflexivity].
      intros _ E. apply Hne. rewrite E. reflexivity.
    + rewrite (connect_rejected wallet w e Hr). exact H.
  - unfold connect. rewrite Hp. exact H.
Qed.

Lemma in_sync_onClick (wallet : Wallet) (a : Action) (w : World) :
  wallet eth_requestAccounts <> Fulfilled [] ->
  in_sync (state w) ->
  in_sync (state (snd (run wallet (onClick a (state w)) w))).
Proof.
  intros Hne H. destruct a; simpl.
  - apply in_sync_connect; assumption.
  - rewrite Quiet_run; [exact H | apply Quiet_toggleChain].
  - rewrite Quiet_run; [exact H | apply Quiet_addChain].
  - rewrite Quiet_run; [exact H | apply Quiet_transferAccount].
  - apply in_sync_disconnect; assumption.
Qed.

Lemma reachable_ready : reachable ready.
Proof.
  apply (reachable_step start Mount).
  - apply reachable_start.
  - exact (step_mount start (Some window_ethereum) eq_refl).
Qed.

(** What [run] computes is what the panel does when the wallet settles
    the requests of one handler before anything else happens. *)
Lemma launch_run_reachable (wallet : Wallet) (o : Origin) (m : Async unit) :
  forall p,
    reachable (launch o m p) ->
    exists q, reachable q /\
              world q = snd (run wallet m (world p)) /\
              inflight q = inflight p.
Proof.
  induction m as [a | e | e k IH | r k IH]; intros p Hreach.
  - exists (launch o (Ret a) p). repeat split. exact Hreach.
  - exists (launch o (Throw e) p). repeat split. exact Hreach.
  - apply (IH {| world := effect e (world p); mounted := mounted p;
                 inflight := inflight p |}).
    exact Hreach.
  - destruct (IH (wallet r)
                {| world := send r (world p); mounted := mounted p;
                   inflight := inflight p ++ [] |}) as (q & Hq & Hw & Hin).
    + apply (reachable_step (launch o (Await r k) p) o); [exact Hreach |].
      exact (step_settle (launch o (Await r k) p) (inflight p)
               {| origin := o; awaiting := r; resume := k |} []
               (wallet r) eq_refl).
    + exists q. split; [exact Hq |]. split; [exact Hw |].
      rewrite Hin. apply app_nil_r.
Qed.

Lemma click_run_reachable (wallet : Wallet) (a : Action) (p : Panel) :
  reachable p ->
  exists q, reachable q /\
            world q = snd (run wallet (onClick a (state (world p))) (world p)).
Proof.
  intros Hreach.
  destruct (launch_run_reachable wallet (Click a)
              (onClick a (state (world p))) p) as (q & Hq & Hw & _).
  - apply (reachable_step p (Click a)); [exact Hreach | apply step_click].
  - exists q. split; assumption.
Qed.

(** C1 fails on the code: [connect] sets the flag to true without looking
    at the list it was granted.  Against a wallet that grants the empty
    list it ends with the flag true and no account, and the panel reaches
    that very state. *)
Theorem connect_empty_grant_desync :
  let w' := snd (run (granting [] "0x1") (connect detected) (boot detected)) in
  view (state w') = ([], "0x1", true) /\
  ~ in_sync (state w') /\
  exists p, reachable p /\ world p = w'.
Proof.
  split; [reflexivity |]. split.
  - intros [H _]. apply (H eq_refl). reflexivity.
  - apply (click_run_reachable (granting [] "0x1") Connect ready).
    apply reachable_ready.
Qed.

(** ** The panel without a provider *)

Lemma effect_keeps_provider (e : Effect) (w : World) :
  provider (state w) <> None -> provider (state (effect e w)) <> None.
Proof.
  intros H. destruct e; simpl; try exact H. discriminate.
Qed.

Lemma advance_keeps_provider {A : Type} (m : Async A) (w : World) :
  provider (state w) <> None ->
  provider (state (snd (advance m w))) <> None.
Proof.
  revert w. induction m as [a | e | e k IH | r k _]; intros w H; simpl;
    try exact H.
  apply IH, effect_keeps_provider, H.
Qed.

Lemma launch_keeps_provider (o : Origin) (m : Async unit) (p : Panel) :
  provider (state (world p)) <> None ->
  provider (state (world (launch o m p))) <> None.
Proof.
  intros H. unfold launch.
  pose proof (advance_keeps_provider m (world p) H) as Hk.
  destruct (advance m (world p)) as [[c | r k] w]; exact Hk.
Qed.

(** Without a handle every click handler returns at its first line. *)
Lemma onClick_without_provider (a : Action) (s : State) :
  provider s = None -> onClick a s = Ret tt.
Proof.
  intros H. destruct a; simpl;
    [unfold connect | unfold toggleChain | unfold addChain
     | unfold transferAccount | unfold disconnect];
    rewrite H; reflexivity.
Qed.

Lemma launch_Ret (o : Origin) (p : Panel) : launch o (Ret tt) p = p.
Proof.
  destruct p. reflexivity.
Qed.

(** As long as no provider was found, nothing was written and nothing is
    in flight. *)
Lemma without_provider_untouched (p : Panel) :
  reachable p ->
  provider (state (world p)) = None ->
  world p = boot initial /\ inflight p = [].
Proof.
  induction 1 as [| p o q Hreach IH Hstep]; intros Hnone.
  - split; reflexivity.
  - destruct (provider (state (world p))) as [h |] eqn:Hp.
    + exfalso. revert Hnone.
      destruct Hstep as [p eth Hm | p a | p h' payload _ | p h' payload _
                         | p before q after o Hin];
        try (apply launch_keeps_provider; rewrite Hp; discriminate).
      * apply launch_keeps_provider. simpl. rewrite Hp. discriminate.
      * apply launch_keeps_provider. simpl. rewrite Hp. discriminate.
    + specialize (IH eq_refl). destruct IH as [Hw Hin].
      destruct Hstep as [p eth Hm | p a | p h' payload Hsome
                         | p h' payload Hsome | p before q after o Hsplit].
      * destruct eth as [h |]; [discriminate Hnone |].
        simpl. split; assumption.
      * rewrite (onClick_without_provider a _ Hp), launch_Ret.
        split; assumption.
      * congruence.
      * congruence.
      * rewrite Hin in Hsplit. destruct before; discriminate Hsplit.
Qed.

(** C7: while no provider handle exists, each of the five actions
    returns at once without sending a request or writing a cell, and the
    view state is still the initial one: no account, no chain identifier,
    flag false. *)
Theorem no_provider_no_op (p : Panel) (a : Action) (wallet : Wallet) :
  reachable p ->
  provider (state (world p)) = None ->
  run wallet (onClick a (state (world p))) (world p) = (Normal tt, world p) /\
  launch (Click a) (onClick a (state (world p))) p = p /\
  requested (world p) = [] /\
  view (state (world p)) = ([], "", false).
Proof.
  intros Hreach Hnone.
  destruct (without_provider_untouched p Hreach Hnone) as [Hw _].
  rewrite (onClick_without_provider a _ Hnone), launch_Ret, Hw.
  repeat split; reflexivity.
Qed.

Lemma no_provider_no_op_witness :
  run (granting [alice] "0x1") (onClick Connect initial) (boot initial) =
  (Normal tt, boot initial).
Proof.
  apply (no_provider_no_op start Connect (granting [alice] "0x1")
           reachable_start eq_refl).
Defined.

(** ** disconnect *)

(** C8: from every state of the panel, [disconnect] ends with an empty
    account list, an empty chain identifier and the flag false, and sends
    nothing to the provider, whatever the wallet would have answered. *)
Theorem disconnect_clears (wallet : Wallet) (w : World) :
  (provider (state w) <> None \/ exists p, reachable p /\ world p = w) ->
  let w' := snd (run wallet (disconnect (state w)) w) in
  view (state w') = ([], "", false) /\ requested w' = requested w.
Proof.
  intros H. unfold disconnect.
  destruct (provider (state w)) as [h |] eqn:Hp; simpl.
  - split; reflexivity.
  - destruct H as [H | (p & Hreach & <-)]; [congruence |].
    destruct (without_provider_untouched p Hreach Hp) as [Hw _].
    rewrite Hw. split; reflexivity.
Qed.

Lemma disconnect_clears_witness :
  view (state (snd (run (refusing userRejected) (disconnect on_sepolia)
                        (boot on_sepolia)))) = ([], "", false).
Proof.
  apply (disconnect_clears (refusing userRejected) (boot on_sepolia)).
  left. discriminate.
Defined.

(** ** Who writes the chain identifier *)

Lemma launch_Quiet (o : Origin) (m : Async unit) (p : Panel) :
  Quiet m ->
  Forall quiet_unless_connect (inflight p) ->
  state (world (launch o m p)) = state (world p) /\
  Forall quiet_unless_connect (inflight (launch o m p)).
Proof.
  intros Hm Hp. unfold launch.
  destruct (Quiet_advance m Hm (world p)) as [Hs Hk].
  destruct (advance m (world p)) as [[c | r k] w]; simpl in *.
  - split; assumption.
  - split; [assumption |].
    apply Forall_app. split; [assumption |].
    constructor; [right; exact Hk | constructor].
Qed.

Lemma inflight_quiet_unless_connect (p : Panel) :
  reachable p -> Forall quiet_unless_connect (inflight p).
Proof.
  induction 1 as [| p o q Hreach IH Hstep].
  - constructor.
  - destruct Hstep as [p eth Hm | p a | p h payload _ | p h payload _
                       | p before q after o Hsplit].
    + destruct eth; exact IH.
    + destruct a.
      * unfold launch.
        destruct (advance (onClick Connect (state (world p))) (world p))
          as [[c | r k] w]; simpl; [exact IH |].
        apply Forall_app. split; [exact IH |].
        constructor; [left; reflexivity | constructor].
      * apply launch_Quiet; [apply Quiet_toggleChain | exact IH].
      * apply launch_Quiet; [apply Quiet_addChain | exact IH].
      * apply launch_Quiet; [apply Quiet_transferAccount | exact IH].
      * simpl. unfold disconnect.
        destruct (provider (state (world p))); exact IH.
    + destruct payload; exact IH.
    + exact IH.
    + rewrite Hsplit in IH. apply Forall_app in IH. destruct IH as [Hb Ha].
      inversion Ha as [| q' after' Hq Hafter]; subst.
      assert (Hrest : Forall quiet_unless_connect (before ++ after))
        by (apply Forall_app; split; assumption).
      destruct Hq as [Hc | Hq].
      * unfold launch. simpl.
        destruct (advance (resume q o) (world p)) as [[c | r k] w]; simpl;
          [exact Hrest |].
        apply Forall_app. split; [exact Hrest |].
        constructor; [left; exact Hc | constructor].
      * apply launch_Quiet; [apply Hq | exact Hrest].
Qed.

Lemma step_chainId_writers (p q : Panel) (o : Origin) :
  reachable p ->
  step p o q ->
  chainId (state (world q)) <> chainId (state (world p)) ->
  o = ChainChanged \/ o = Click Connect \/ o = Click Disconnect.
Proof.
  intros Hreach Hstep Hneq.
  pose proof (inflight_quiet_unless_connect p Hreach) as Hq.
  destruct Hstep as [p eth Hm | p a | p h payload _ | p h payload _
                     | p before q after o Hsplit].
  - exfalso. apply Hneq. destruct eth; reflexivity.
  - destruct a; auto; exfalso; apply Hneq; f_equal.
    + apply launch_Quiet; [apply Quiet_toggleChain | exact Hq].
    + apply launch_Quiet; [apply Quiet_addChain | exact Hq].
    + apply launch_Quiet; [apply Quiet_transferAccount | exact Hq].
  - exfalso. apply Hneq. destruct payload; reflexivity.
  - left. reflexivity.
  - rewrite Hsplit in Hq. apply Forall_app in Hq. destruct Hq as [Hb Ha].
    inversion Ha as [| q' after' Hqq Hafter]; subst.
    destruct Hqq as [Hc | Hqq]; [right; left; exact Hc |].
    exfalso. apply Hneq.
    assert (Hrest : Forall quiet_unless_connect (before ++ after))
      by (apply Forall_app; split; assumption).
    exact (f_equal chainId
             (proj1 (launch_Quiet (origin q) (resume q o)
                       {| world := world p; mounted := mounted p;
                          inflight := before ++ after |}
                       (Hqq o) Hrest))).
Qed.

(** C10: [toggleChain] and [addChain] write no cell, whatever the wallet
    answers; the chain-changed handler stores its payload as it is; and
    in every turn of the panel that changes the stored chain identifier,
    the code that ran is the chain-changed handler, [connect] or
    [disconnect]. *)
Theorem chainId_written_only_by :
  (forall (wallet : Wallet) (s : State) (w : World),
     state (snd (run wallet (toggleChain s) w)) = state w /\
     state (snd (run wallet (addChain s) w)) = state w) /\
  (forall (wallet : Wallet) (payload : string) (w : World),
     chainId (state (snd (run wallet (handleChainChanged payload) w))) =
     payload) /\
  (forall (p q : Panel) (o : Origin),
     reachable p -> step p o q ->
     chainId (state (world q)) <> chainId (state (world p)) ->
     o = ChainChanged \/ o = Click Connect \/ o = Click Disconnect).
Proof.
  split; [intros wallet s w; split; apply Quiet_run;
          [apply Quiet_toggleChain | apply Quiet_addChain] |].
  split; [reflexivity |].
  intros p q o Hreach. apply step_chainId_writers, Hreach.
Qed.

Lemma chainId_written_only_by_witness :
  exists q,
    step ready ChainChanged q /\
    chainId (state (world q)) = "0x1" /\
    (ChainChanged = ChainChanged \/ ChainChanged = Click Connect \/
     ChainChanged = Click Disconnect).
Proof.
  exists (launch ChainChanged (handleChainChanged "0x1") ready).
  assert (Hs : step ready ChainChanged
                 (launch ChainChanged (handleChainChanged "0x1") ready))
    by exact (step_chainChanged ready window_ethereum "0x1" eq_refl).
  split; [exact Hs |]. split; [reflexivity |].
  apply (proj2 (proj2 chainId_written_only_by)
           ready _ ChainChanged reachable_ready Hs).
  discriminate.
Defined.

(** ** What connect asks for and leaves behind *)

(** X1: with a provider present, a [connect] whose two requests are
    granted asks for the accounts and then for the chain identifier, in
    that order, stores both answers, sets the flag and logs the accounts;
    a [connect] whose account request is rejected never asks for the chain
    identifier, changes no cell and logs the error.  In both cases the
    handler returns normally. *)
Theorem connect_outcomes (wallet : Wallet) (w : World) (h : Provider) :
  provider (state w) = Some h ->
  (forall result chain,
     wallet eth_requestAccounts = Fulfilled result ->
     wallet eth_chainId = Fulfilled chain ->
     run wallet (connect (state w)) w =
     (Normal tt,
      {| state := {| provider := Some h; accounts := result;
                     chainId := chain; isConnected := true |};
         requested := requested w ++ [eth_requestAccounts; eth_chainId];
         console := console w ++ [[Str "Connected:"; Arr result]] |})) /\
  (forall e,
     wallet eth_requestAccounts = Rejected e ->
     run wallet (connect (state w)) w =
     (Normal tt,
      {| state := state w;
         requested := requested w ++ [eth_requestAccounts];
         console := console w ++ [[Str "Connection error:"; Err e]] |})).
Proof.
  intros Hp. split.
  - intros result chain Ha Hc. unfold connect. rewrite Hp. simpl.
    rewrite Ha. simpl. rewrite Hc. simpl. rewrite Hp, <- app_assoc.
    reflexivity.
  - intros e Ha. unfold connect. rewrite Hp. simpl. rewrite Ha. reflexivity.
Qed.

Lemma connect_outcomes_witness :
  run (granting [alice] "0x1") (connect detected) (boot detected) =
  (Normal tt,
   {| state := {| provider := Some window_ethereum; accounts := [alice];
                  chainId := "0x1"; isConnected := true |};
      requested := [eth_requestAccounts; eth_chainId];
      console := [[Str "Connected:"; Arr [alice]]] |}).
Proof.
  apply (proj1 (connect_outcomes (granting [alice] "0x1") (boot detected)
                  window_ethereum eq_refl) [alice] "0x1" eq_refl eq_refl).
Defined.

(** ** Failures are reported and go no further *)

Lemma code_is_true (e : ProviderError) (n : Z) :
  code_is e n = true <-> code e = Some n.
Proof.
  unfold code_is. destruct (code e) as [c |].
  - rewrite Z.eqb_eq. split; congruence.
  - split; discriminate.
Qed.

(** X2: the errors a click handler prints are exactly the rejections the
    wallet gave to the requests that handler sent, in order: each failure
    is reported once and nothing else is reported as an error.  The
    handlers whose [catch] block only logs the error, which are all but
    [toggleChain], moreover return normally whatever the wallet answers.
    Nothing is said of how [toggleChain] returns: its [catch] block reads
    [error.code]. *)
Theorem handlers_report_rejections (wallet : Wallet) (a : Action) (w : World) :
  (a <> ToggleChain -> fst (run wallet (onClick a (state w)) w) = Normal tt) /\
  exists sent lines,
    requested (snd (run wallet (onClick a (state w)) w)) =
    requested w ++ sent /\
    console (snd (run wallet (onClick a (state w)) w)) =
    console w ++ lines /\
    errors_of lines = rejections wallet sent.
Proof.
  assert (Hnone : forall m : Async unit, m = Ret tt ->
            (a <> ToggleChain -> fst (run wallet m w) = Normal tt) /\
            exists sent lines,
              requested (snd (run wallet m w)) = requested w ++ sent /\
              console (snd (run wallet m w)) = console w ++ lines /\
              errors_of lines = rejections wallet sent).
  { intros m ->. split; [intros _; reflexivity |]. exists [], [].
    simpl. rewrite !app_nil_r. repeat split; reflexivity. }
  destruct (provider (state w)) as [h |] eqn:Hp;
    [| apply Hnone, onClick_without_provider, Hp].
  destruct a; simpl.
  - unfold connect. rewrite Hp. simpl.
    destruct (wallet eth_requestAccounts) as [result | e] eqn:Ha; simpl.
    + destruct (wallet eth_chainId) as [chain | e] eqn:Hc; simpl.
      * split; [intros _; reflexivity |].
        exists [eth_requestAccounts; eth_chainId],
               [[Str "Connected:"; Arr result]].
        rewrite <- app_assoc. unfold rejections. simpl. rewrite Ha, Hc.
        repeat split; reflexivity.
      * split; [intros _; reflexivity |].
        exists [eth_requestAccounts; eth_chainId],
               [[Str "Connection error:"; Err e]].
        rewrite <- app_assoc. unfold rejections. simpl. rewrite Ha, Hc.
        repeat split; reflexivity.
    + split; [intros _; reflexivity |].
      exists [eth_requestAccounts], [[Str "Connection error:"; Err e]].
      unfold rejections. simpl. rewrite Ha. repeat split; reflexivity.
  - unfold toggleChain. rewrite Hp. simpl.
    destruct (wallet (wallet_switchEthereumChain _)) as [[] | e] eqn:Hs; simpl.
    + split; [intros _; reflexivity |]. eexists [_], [_].
      unfold rejections. simpl. rewrite Hs. repeat split; reflexivity.
    + destruct (code_is e 4902); simpl.
      * split; [intros _; reflexivity |]. eexists [_], [_; _].
        rewrite <- app_assoc. unfold rejections. simpl. rewrite Hs.
        repeat split; reflexivity.
      * split; [intros _; reflexivity |]. eexists [_], [_].
        unfold rejections. simpl. rewrite Hs. repeat split; reflexivity.
  - unfold addChain. rewrite Hp. simpl.
    destruct (wallet (wallet_addEthereumChain mantle)) as [[] | e] eqn:Hs;
      simpl; (split; [intros _; reflexivity |]); eexists [_], [_];
      unfold rejections; simpl; rewrite Hs; repeat split; reflexivity.
  - unfold transferAccount. rewrite Hp.
    destruct (accounts (state w)) as [| first rest]; [apply Hnone; reflexivity |].
    simpl. destruct (chainId (state w) =? SEPOLIA_CHAIN_ID); simpl.
    + destruct (wallet (eth_sendTransaction _)) as [tx | e] eqn:Hs;
        simpl; (split; [intros _; reflexivity |]); eexists [_], [_];
        unfold rejections; simpl; rewrite Hs; repeat split; reflexivity.
    + split; [intros _; reflexivity |]. eexists [], [_].
      rewrite app_nil_r. repeat split; reflexivity.
  - unfold disconnect. rewrite Hp. simpl.
    split; [intros _; reflexivity |]. eexists [], [_].
    rewrite app_nil_r. repeat split; reflexivity.
Qed.

Lemma handlers_report_rejections_witness :
  fst (run (refusing userRejected) (onClick Connect on_sepolia)
           (boot on_sepolia)) = Normal tt.
Proof.
  apply (handlers_report_rejections (refusing userRejected) Connect
           (boot on_sepolia)).
  discriminate.
Defined.

(** ** More on toggleChain *)

Lemma toggleChain_keeps_state (wallet : Wallet) (s : State) (w : World) :
  state (snd (run wallet (toggleChain s) w)) = state w.
Proof.
  apply Quiet_run, Quiet_toggleChain.
Qed.

(** X3: when the switch request is rejected, [toggleChain] prints the
    error, and it adds the advice to register the chain exactly when the
    rejection carries the code 4902; a rejection with another code, or
    with none, gets the error line alone. *)
Theorem toggleChain_rejected_lines (wallet : Wallet) (w : World)
    (h : Provider) (e : ProviderError) :
  provider (state w) = Some h ->
  (forall target, wallet (wallet_switchEthereumChain target) = Rejected e) ->
  let printed := console (snd (run wallet (toggleChain (state w)) w)) in
  (code e = Some 4902%Z ->
   printed =
   console w ++ [[Str "Error switching chain:"; Err e];
                 [Str "Chain not available, please add it first"]]) /\
  (code e <> Some 4902%Z ->
   printed = console w ++ [[Str "Error switching chain:"; Err e]]).
Proof.
  intros Hp Hrej printed. subst printed.
  unfold toggleChain. rewrite Hp. simpl. rewrite Hrej. simpl.
  destruct (code_is e 4902) eqn:Hc; simpl.
  - apply code_is_true in Hc. split; [intros _ | congruence].
    rewrite <- app_assoc. reflexivity.
  - split; [| reflexivity].
    intros Hcode. apply code_is_true in Hcode. congruence.
Qed.

Lemma toggleChain_rejected_lines_witness :
  console (snd (run (refusing {| code := Some 4902%Z;
                                 message := "Unrecognized chain ID" |})
                    (toggleChain on_sepolia) (boot on_sepolia))) =
  [[Str "Error switching chain:";
    Err {| code := Some 4902%Z; message := "Unrecognized chain ID" |}];
   [Str "Chain not available, please add it first"]] /\
  console (snd (run (refusing userRejected)
                    (toggleChain on_sepolia) (boot on_sepolia))) =
  [[Str "Error switching chain:"; Err userRejected]].
Proof.
  split.
  - apply (toggleChain_rejected_lines
             (refusing {| code := Some 4902%Z;
                          message := "Unrecognized chain ID" |})
             (boot on_sepolia) window_ethereum _ eq_refl (fun _ => eq_refl)).
    reflexivity.
  - apply (toggleChain_rejected_lines (refusing userRejected)
             (boot on_sepolia) window_ethereum _ eq_refl (fun _ => eq_refl)).
    discriminate.
Defined.

(** X4: when the switch request is granted, the line [toggleChain]
    prints names the requested network as [getNetworkName] does. *)
Theorem toggleChain_granted_line (wallet : Wallet) (w : World) (h : Provider) :
  provider (state w) = Some h ->
  (forall target, wallet (wallet_switchEthereumChain target) = Fulfilled tt) ->
  exists target,
    requested (snd (run wallet (toggleChain (state w)) w)) =
    requested w ++ [wallet_switchEthereumChain target] /\
    console (snd (run wallet (toggleChain (state w)) w)) =
    console w ++ [[Str ("Switching to " ++ getNetworkName target)]].
Proof.
  intros Hp Hok. unfold toggleChain. rewrite Hp. simpl. rewrite Hok. simpl.
  destruct (chainId (state w) =? SEPOLIA_CHAIN_ID);
    eexists; split; reflexivity.
Qed.

Lemma toggleChain_granted_line_witness :
  exists target,
    requested (snd (run (granting [alice] "0xaa36a7")
                        (toggleChain on_sepolia) (boot on_sepolia))) =
    [wallet_switchEthereumChain target] /\
    console (snd (run (granting [alice] "0xaa36a7")
                      (toggleChain on_sepolia) (boot on_sepolia))) =
    [[Str ("Switching to " ++ getNetworkName target)]].
Proof.
  apply (toggleChain_granted_line (granting [alice] "0xaa36a7")
           (boot on_sepolia) window_ethereum eq_refl (fun _ => eq_refl)).
Defined.

(** X5: toggling twice.  If the wallet follows the first request and the
    chain-changed notification stores its target, the second
    [toggleChain] asks for the other known network: starting on "0x1" or
    "0xaa36a7" the second request leads back to the starting chain, and
    starting anywhere else the requests are "0xaa36a7" and then "0x1". *)
Theorem toggleChain_twice (wallet : Wallet) (w : World) (h : Provider) :
  provider (state w) = Some h ->
  exists first second,
    let w1 := snd (run wallet (toggleChain (state w)) w) in
    let w2 := snd (run wallet (handleChainChanged first) w1) in
    requested w1 = requested w ++ [wallet_switchEthereumChain first] /\
    requested (snd (run wallet (toggleChain (state w2)) w2)) =
    requested w2 ++ [wallet_switchEthereumChain second] /\
    second <> first /\
    (chainId (state w) = "0x1" \/ chainId (state w) = "0xaa36a7" ->
     second = chainId (state w)) /\
    (chainId (state w) <> "0x1" -> chainId (state w) <> "0xaa36a7" ->
     first = "0xaa36a7" /\ second = "0x1").
Proof.
  intros Hp.
  exists (if chainId (state w) =? SEPOLIA_CHAIN_ID then MAINNET_CHAIN_ID
          else SEPOLIA_CHAIN_ID).
  exists (if chainId (state w) =? SEPOLIA_CHAIN_ID then SEPOLIA_CHAIN_ID
          else MAINNET_CHAIN_ID).
  split; [apply (toggleChain_requested wallet w h Hp) |].
  pose proof (toggleChain_keeps_state wallet (state w) w) as Hs.
  remember (snd (run wallet (toggleChain (state w)) w)) as w1 eqn:Hw1.
  clear Hw1. split.
  - rewrite (toggleChain_requested wallet _ h).
    + simpl. destruct (chainId (state w) =? SEPOLIA_CHAIN_ID); reflexivity.
    + simpl. rewrite Hs. exact Hp.
  - unfold SEPOLIA_CHAIN_ID, MAINNET_CHAIN_ID.
    destruct (chainId (state w) =? "0xaa36a7") eqn:Hc.
    + apply String.eqb_eq in Hc. rewrite Hc.
      repeat split; try discriminate; try congruence; intros _; reflexivity.
    + apply String.eqb_neq in Hc.
      repeat split; try discriminate; try congruence;
        intros [H1 | H2]; congruence.
Qed.

Lemma toggleChain_twice_witness :
  exists first second,
    requested (snd (run (granting [alice] "0xaa36a7")
                        (toggleChain on_sepolia) (boot on_sepolia))) =
    [wallet_switchEthereumChain first] /\
    second <> first /\ second = "0xaa36a7".
Proof.
  destruct (toggleChain_twice (granting [alice] "0xaa36a7") (boot on_sepolia)
              window_ethereum eq_refl)
    as (first & second & H1 & _ & Hne & Hback & _).
  exists first, second. split; [exact H1 |]. split; [exact Hne |].
  apply Hback. right. reflexivity.
Defined.

(** ** Notifications *)

(** X6: the two notification handlers finish in the turn they start in
    and send nothing to the provider.  An accounts-changed notification
    leaves the chain identifier and the provider handle alone; a
    chain-changed notification leaves the account list, the flag and the
    handle alone, so a change of network never disconnects the panel. *)
Theorem notifications_are_local (wallet : Wallet) (p : Panel) :
  (forall payload,
     let w' := snd (run wallet (handleAccountsChanged payload) (world p)) in
     chainId (state w') = chainId (state (world p)) /\
     provider (state w') = provider (state (world p)) /\
     requested w' = requested (world p) /\
     world (launch AccountsChanged (handleAccountsChanged payload) p) = w' /\
     inflight (launch AccountsChanged (handleAccountsChanged payload) p) =
     inflight p) /\
  (forall payload,
     let w' := snd (run wallet (handleChainChanged payload) (world p)) in
     accounts (state w') = accounts (state (world p)) /\
     isConnected (state w') = isConnected (state (world p)) /\
     provider (state w') = provider (state (world p)) /\
     requested w' = requested (world p) /\
     world (launch ChainChanged (handleChainChanged payload) p) = w' /\
     inflight (launch ChainChanged (handleChainChanged payload) p) =
     inflight p).
Proof.
  split; intros payload.
  - destruct payload; simpl; repeat split; reflexivity.
  - simpl. repeat split; reflexivity.
Qed.

(** ** The panel and its handlers *)

(** X7: the label of the toggle button tells what a click on it asks
    for: with a provider present, "Switch to Ethereum" goes with a request
    for "0x1" and "Switch to Sepolia" with a request for "0xaa36a7". *)
Theorem toggle_label_matches_request (wallet : Wallet) (w : World)
    (h : Provider) :
  provider (state w) = Some h ->
  let sent := requested (snd (run wallet (toggleChain (state w)) w)) in
  (toggleLabel (render (state w)) = "Switch to Ethereum" /\
   sent = requested w ++ [wallet_switchEthereumChain "0x1"]) \/
  (toggleLabel (render (state w)) = "Switch to Sepolia" /\
   sent = requested w ++ [wallet_switchEthereumChain "0xaa36a7"]).
Proof.
  intros Hp sent. subst sent. rewrite (toggleChain_requested wallet w h Hp).
  simpl. destruct (chainId (state w) =? SEPOLIA_CHAIN_ID);
    [left | right]; split; reflexivity.
Qed.

Lemma toggle_label_matches_request_witness :
  toggleLabel (render on_sepolia) = "Switch to Ethereum" /\
  requested (snd (run (refusing userRejected) (toggleChain on_sepolia)
                      (boot on_sepolia))) =
  [wallet_switchEthereumChain "0x1"].
Proof.
  destruct (toggle_label_matches_request (refusing userRejected)
              (boot on_sepolia) window_ethereum eq_refl) as [H | [H _]].
  - exact H.
  - discriminate H.
Defined.

(** X8: connecting and then transferring.  After a [connect] that was
    granted a non-empty account list on "0xaa36a7", [transferAccount]
    sends the transaction from the first granted account; after a
    [connect] that was granted accounts on any other chain it sends
    nothing. *)
Theorem connect_then_transfer (wallet : Wallet) (w : World) (h : Provider)
    (first : string) (rest : list string) (chain : string) :
  provider (state w) = Some h ->
  wallet eth_requestAccounts = Fulfilled (first :: rest) ->
  wallet eth_chainId = Fulfilled chain ->
  let w1 := snd (run wallet (connect (state w)) w) in
  let sent := requested (snd (run wallet (transferAccount (state w1)) w1)) in
  (chain = "0xaa36a7" -> sent = requested w1 ++ [transfer_from first]) /\
  (chain <> "0xaa36a7" -> sent = requested w1).
Proof.
  intros Hp Ha Hc w1 sent. subst sent.
  rewrite transferAccount_requested.
  assert (Hs : state w1 =
               {| provider := Some h; accounts := first :: rest;
                  chainId := chain; isConnected := true |}).
  { subst w1. rewrite (connect_granted wallet w h (first :: rest) Hp Ha), Hc.
    reflexivity. }
  rewrite Hs. simpl. unfold SEPOLIA_CHAIN_ID. split.
  - intros ->. reflexivity.
  - intros Hne. apply String.eqb_neq in Hne. rewrite Hne.
    apply app_nil_r.
Qed.

Lemma connect_then_transfer_witness :
  requested
    (snd (run (granting [alice] "0xaa36a7")
            (transferAccount
               (state (snd (run (granting [alice] "0xaa36a7")
                              (connect detected) (boot detected)))))
            (snd (run (granting [alice] "0xaa36a7")
                    (connect detected) (boot detected))))) =
  [eth_requestAccounts; eth_chainId; transfer_from alice].
Proof.
  apply (connect_then_transfer (granting [alice] "0xaa36a7") (boot detected)
           window_ethereum alice [] "0xaa36a7" eq_refl eq_refl eq_refl).
  reflexivity.
Defined.

(** X9: after [disconnect], with a provider present, the panel shows no
    connection details, a click on "Transfer" sends nothing, and the
    toggle button reads "Switch to Sepolia" and asks for "0xaa36a7",
    whatever the state was before. *)
Theorem after_disconnect (wallet : Wallet) (w : World) (h : Provider) :
  provider (state w) = Some h ->
  let w1 := snd (run wallet (disconnect (state w)) w) in
  render (state w1) =
  {| toggleLabel := "Switch to Sepolia"; details := None |} /\
  requested (snd (run wallet (transferAccount (state w1)) w1)) =
  requested w /\
  requested (snd (run wallet (toggleChain (state w1)) w1)) =
  requested w ++ [wallet_switchEthereumChain "0xaa36a7"].
Proof.
  intros Hp w1.
  assert (Hw : w1 =
               {| state := {| provider := Some h; accounts := [];
                              chainId := ""; isConnected := false |};
                  requested := requested w;
                  console := console w ++ [[Str "Disconnected"]] |}).
  { subst w1. unfold disconnect. rewrite Hp. simpl. rewrite Hp. reflexivity. }
  rewrite Hw. split; [reflexivity |]. split.
  - rewrite transferAccount_requested. simpl. apply app_nil_r.
  - rewrite (toggleChain_requested wallet _ h); reflexivity.
Qed.

Lemma after_disconnect_witness :
  render (state (snd (run (refusing userRejected) (disconnect on_sepolia)
                          (boot on_sepolia)))) =
  {| toggleLabel := "Switch to Sepolia"; details := None |}.
Proof.
  apply (after_disconnect (refusing userRejected) (boot on_sepolia)
           window_ethereum eq_refl).
Defined.

(** ** Invariants of the event loop *)

Section EventLoop.

Variable Inv : World -> Prop.

Lemma stable_advance {A : Type} (m : Async A) (w : World) :
  stable Inv m ->
  match fst (advance m w) with
  | Finished _ => True
  | Suspended r k => forall o, keeps Inv (k o)
  end.
Proof.
  revert w. induction m as [a | e | e k IH | r k _]; intros w Hm; simpl.
  - exact I.
  - exact I.
  - apply IH, Hm.
  - exact Hm.
Qed.

Lemma launch_inflight_keep (o : Origin) (m : Async unit) (p : Panel) :
  stable Inv m -> inflight_keep Inv p -> inflight_keep Inv (launch o m p).
Proof.
  intros Hm Hp. unfold launch.
  pose proof (stable_advance m (world p) Hm) as Hk.
  destruct (advance m (world p)) as [[c | r k] w]; simpl in *.
  - exact Hp.
  - apply Forall_app. split; [exact Hp |].
    constructor; [exact Hk | constructor].
Qed.

Lemma launch_preserves (o : Origin) (m : Async unit) (p : Panel) :
  preserves Inv m -> Inv (world p) -> Inv (world (launch o m p)).
Proof.
  intros Hm Hp. unfold launch. specialize (Hm (world p) Hp).
  destruct (advance m (world p)) as [[c | r k] w]; exact Hm.
Qed.

Hypothesis onClick_keeps : forall a s, keeps Inv (onClick a s).
Hypothesis handleAccountsChanged_keeps :
  forall payload, keeps Inv (handleAccountsChanged payload).
Hypothesis handleChainChanged_keeps :
  forall payload, keeps Inv (handleChainChanged payload).

Lemma reachable_inflight_keep (p : Panel) :
  reachable p -> inflight_keep Inv p.
Proof.
  induction 1 as [| p o q Hreach IH Hstep].
  - constructor.
  - destruct Hstep as [p eth Hm | p a | p h payload _ | p h payload _
                       | p before q after o Hsplit].
    + destruct eth; exact IH.
    + apply launch_inflight_keep; [apply onClick_keeps | exact IH].
    + apply launch_inflight_keep;
        [apply handleAccountsChanged_keeps | exact IH].
    + apply launch_inflight_keep; [apply handleChainChanged_keeps | exact IH].
    + unfold inflight_keep in IH. rewrite Hsplit in IH.
      apply Forall_app in IH. destruct IH as [Hb Ha].
      inversion Ha as [| q' after' Hq Hafter]; subst.
      apply launch_inflight_keep; [apply Hq |].
      apply Forall_app. split; assumption.
Qed.

(** Once the first effect has run, every turn keeps [Inv]. *)
Lemma step_keeps (p q : Panel) (o : Origin) :
  reachable p -> mounted p = true -> step p o q ->
  Inv (world p) -> Inv (world q).
Proof.
  intros Hreach Hmounted Hstep Hinv.
  pose proof (reachable_inflight_keep p Hreach) as Hkeep.
  destruct Hstep as [p eth Hm | p a | p h payload _ | p h payload _
                     | p before q after o Hsplit].
  - congruence.
  - apply launch_preserves; [apply onClick_keeps | exact Hinv].
  - apply launch_preserves; [apply handleAccountsChanged_keeps | exact Hinv].
  - apply launch_preserves; [apply handleChainChanged_keeps | exact Hinv].
  - unfold inflight_keep in Hkeep. rewrite Hsplit in Hkeep.
    apply Forall_app in Hkeep. destruct Hkeep as [_ Ha].
    inversion Ha as [| q' after' Hq _]; subst.
    apply launch_preserves; [apply Hq | exact Hinv].
Qed.

Hypothesis mountEffect_keeps :
  forall ethereum, preserves Inv (mountEffect ethereum).
Hypothesis initially : Inv (boot initial).

(** The invariant rule: what holds at the start and is kept by every turn
    of every handler holds in every reachable panel. *)
Lemma reachable_invariant (p : Panel) : reachable p -> Inv (world p).
Proof.
  induction 1 as [| p o q Hreach IH Hstep].
  - exact initially.
  - destruct (mounted p) eqn:Hm;
      [exact (step_keeps p q o Hreach Hm Hstep IH) |].
    destruct Hstep as [p eth _ | p a | p h payload _ | p h payload _
                       | p before q after o Hsplit].
    + apply launch_preserves; [apply mountEffect_keeps | exact IH].
    + apply launch_preserves; [apply onClick_keeps | exact IH].
    + apply launch_preserves; [apply handleAccountsChanged_keeps | exact IH].
    + apply launch_preserves; [apply handleChainChanged_keeps | exact IH].
    + pose proof (reachable_inflight_keep p Hreach) as Hkeep.
      unfold inflight_keep in Hkeep. rewrite Hsplit in Hkeep.
      apply Forall_app in Hkeep. destruct Hkeep as [_ Ha].
      inversion Ha as [| q' after' Hq _]; subst.
      apply launch_preserves; [apply Hq | exact IH].
Qed.

End EventLoop.

Lemma Quiet_keeps {A : Type} (Inv : World -> Prop) (m : Async A) :
  (forall args w, Inv w -> Inv (effect (console_log args) w)) ->
  (forall r w, Inv w -> Inv (send r w)) ->
  Quiet m -> keeps Inv m.
Proof.
  intros Hlog Hsend. induction 1 as [a | e | args k _ IH | r k _ IH].
  - split; [intros w H; exact H | exact I].
  - split; [intros w H; exact H | exact I].
  - destruct IH as [Hp Hs]. split; [| exact Hs].
    intros w H. apply (Hp (effect (console_log args) w)), Hlog, H.
  - split; [intros w H; apply Hsend, H |].
    intros o. apply IH.
Qed.

Lemma mounted_launch (o : Origin) (m : Async unit) (p : Panel) :
  mounted (launch o m p) = mounted p.
Proof.
  unfold launch. destruct (advance m (world p)) as [[c | r k] w]; reflexivity.
Qed.

(** Walk through every turn of a handler: each answer of the provider,
    each branch of the error handler. *)
Ltac turns :=
  unfold keeps, preserves;
  repeat first
    [ progress simpl
    | intros [? | ?]
    | split
    | intros ?
    | match goal with
      | |- context [code_is ?e ?n] => destruct (code_is e n)
      end ].

(** *** The provider handle *)

Lemma onClick_keeps_provider (c : option Provider) (a : Action) (s : State) :
  keeps (fun w => provider (state w) = c) (onClick a s).
Proof.
  destruct a; simpl.
  - unfold connect. destruct (provider s); turns; assumption.
  - apply Quiet_keeps; [auto | auto | apply Quiet_toggleChain].
  - apply Quiet_keeps; [auto | auto | apply Quiet_addChain].
  - apply Quiet_keeps; [auto | auto | apply Quiet_transferAccount].
  - unfold disconnect. destruct (provider s); turns; assumption.
Qed.

(** X10: the provider handle is decided by the first effect.  In every
    later turn, whatever ran, the handle is what it was: a wallet found at
    mount time is never dropped, and a wallet that was not there at mount
    time is never picked up. *)
Theorem provider_fixed_after_mount (p q : Panel) (o : Origin) :
  reachable p -> mounted p = true -> step p o q ->
  provider (state (world q)) = provider (state (world p)) /\
  mounted q = true.
Proof.
  intros Hreach Hm Hstep. split.
  - apply (step_keeps (fun w => provider (state w) = provider (state (world p))))
      with (p := p) (o := o); try assumption; try reflexivity.
    + apply onClick_keeps_provider.
    + intros payload. destruct payload; turns; assumption.
    + intros payload. turns; assumption.
  - destruct Hstep; rewrite mounted_launch; try assumption. reflexivity.
Qed.

Lemma provider_fixed_after_mount_witness :
  provider (state (world (launch (Click Disconnect) (disconnect detected)
                            ready))) = Some window_ethereum.
Proof.
  apply (provider_fixed_after_mount ready _ (Click Disconnect)
           reachable_ready eq_refl (step_click ready Disconnect)).
Defined.

(** *** Listed accounts and the flag *)

Lemma reachable_listed_implies_connected (p : Panel) :
  reachable p -> listed_implies_connected (world p).
Proof.
  apply reachable_invariant; unfold listed_implies_connected.
  - intros a s. destruct a; simpl.
    + unfold connect. destruct (provider s); turns; auto.
    + apply Quiet_keeps; [auto | auto | apply Quiet_toggleChain].
    + apply Quiet_keeps; [auto | auto | apply Quiet_addChain].
    + apply Quiet_keeps; [auto | auto | apply Quiet_transferAccount].
    + unfold disconnect. destruct (provider s); turns; auto; congruence.
  - intros payload. destruct payload; turns; auto; congruence.
  - intros payload. turns; auto.
  - intros eth. destruct eth; turns; auto.
  - simpl. congruence.
Qed.

(** X11: in every reachable state of the panel, under every interleaving
    of clicks, notifications and provider answers, a non-empty account
    list comes with the connection flag set: the panel never lists an
    account while it shows itself disconnected. *)
Theorem connected_whenever_listed (p : Panel) :
  reachable p ->
  accounts (state (world p)) <> [] ->
  isConnected (state (world p)) = true.
Proof.
  apply reachable_listed_implies_connected.
Qed.

Lemma connected_whenever_listed_witness :
  isConnected
    (state (world (launch AccountsChanged (handleAccountsChanged [alice])
                     ready))) = true.
Proof.
  apply (connected_whenever_listed
           (launch AccountsChanged (handleAccountsChanged [alice]) ready)).
  - apply (reachable_step ready AccountsChanged); [apply reachable_ready |].
    exact (step_accountsChanged ready window_ethereum [alice] eq_refl).
  - discriminate.
Defined.

(** X12: a panel that shows no connection details holds no account, and
    a click on "Transfer" then sends nothing. *)
Theorem hidden_details_no_transfer (wallet : Wallet) (p : Panel) :
  reachable p ->
  details (render (state (world p))) = None ->
  accounts (state (world p)) = [] /\
  requested (snd (run wallet (transferAccount (state (world p))) (world p))) =
  requested (world p).
Proof.
  intros Hreach Hhidden.
  assert (Hempty : accounts (state (world p)) = []).
  { pose proof (reachable_listed_implies_connected p Hreach) as H.
    unfold listed_implies_connected in H. unfold render in Hhidden.
    simpl in Hhidden.
    destruct (isConnected (state (world p))); [discriminate Hhidden |].
    destruct (accounts (state (world p))); [reflexivity |].
    assert (false = true) by (apply H; discriminate). discriminate. }
  split; [exact Hempty |].
  rewrite transferAccount_requested, Hempty.
  destruct (provider (state (world p))); apply app_nil_r.
Qed.

Lemma hidden_details_no_transfer_witness :
  requested (snd (run (granting [alice] "0xaa36a7") (transferAccount detected)
                      (boot detected))) = [].
Proof.
  apply (hidden_details_no_transfer (granting [alice] "0xaa36a7") ready
           reachable_ready eq_refl).
Defined.

(** *** What the provider is asked *)

Ltac allowed :=
  first
    [ assumption
    | apply Forall_app; split;
      [ assumption
      | constructor;
        [ simpl; first [ exact I | reflexivity | solve [auto]
                       | eexists; reflexivity ]
        | constructor ] ] ].

Lemma onClick_keeps_allowed (a : Action) (s : State) :
  keeps (fun w => Forall Allowed (requested w)) (onClick a s).
Proof.
  destruct a; simpl.
  - unfold connect. destruct (provider s); turns; allowed.
  - unfold toggleChain. destruct (provider s); [| turns; allowed].
    destruct (chainId s =? SEPOLIA_CHAIN_ID); turns; allowed.
  - unfold addChain. destruct (provider s); turns; allowed.
  - unfold transferAccount. destruct (provider s); [| turns; allowed].
    destruct (accounts s) as [| first rest]; [turns; allowed |].
    destruct (chainId s =? SEPOLIA_CHAIN_ID); turns; allowed.
  - unfold disconnect. destruct (provider s); turns; allowed.
Qed.

Lemma reachable_requests_allowed (p : Panel) :
  reachable p -> Forall Allowed (requested (world p)).
Proof.
  apply (reachable_invariant (fun w => Forall Allowed (requested w))).
  - apply onClick_keeps_allowed.
  - intros payload. destruct payload; turns; allowed.
  - intros payload. turns; allowed.
  - intros eth. destruct eth; turns; allowed.
  - constructor.
Qed.

(** X13: whatever the user clicks and the provider answers, the panel
    only ever sends the five requests of the source: account access, the
    chain identifier, a switch to "0x1" or "0xaa36a7", the registration of
    Mantle, and transactions to the fixed recipient for the fixed value.
    Every transaction it sends names a sender: [accounts[0]] is never
    [undefined] there. *)
Theorem requests_stay_in_vocabulary (p : Panel) :
  reachable p ->
  (forall r, In r (requested (world p)) -> Allowed r) /\
  (forall tx,
     In (eth_sendTransaction tx) (requested (world p)) ->
     from tx <> None /\
     to tx = "0x5b522A979ea2a5121b651756CD4274C92386f8C2" /\
     value tx = "0x38D7EA4C68000").
Proof.
  intros Hreach.
  pose proof (reachable_requests_allowed p Hreach) as H.
  rewrite Forall_forall in H. split; [exact H |].
  intros tx Hin. destruct (H _ Hin) as [account Htx].
  injection Htx as ->. simpl. repeat split. discriminate.
Qed.

Lemma requests_stay_in_vocabulary_witness :
  Allowed (wallet_switchEthereumChain "0xaa36a7").
Proof.
  apply (proj1 (requests_stay_in_vocabulary
                  (launch (Click ToggleChain) (toggleChain detected) ready)
                  (reachable_step ready (Click ToggleChain) _ reachable_ready
                     (step_click ready ToggleChain)))).
  left. reflexivity.
Defined.

(** ** A click on Disconnect while connect is waiting *)

(** X14: [disconnect] does not cancel a [connect] that is waiting for the
    provider.  If the user clicks "Connect Wallet" and then "Disconnect"
    before the wallet answers, the panel is cleared; when the wallet then
    grants the accounts, the waiting handler stores them and sets the flag
    again. *)
Theorem disconnect_keeps_pending_connect (p : Panel) (h : Provider)
    (result : list string) :
  reachable p ->
  provider (state (world p)) = Some h ->
  let p1 := launch (Click Connect) (connect (state (world p))) p in
  let p2 := launch (Click Disconnect) (disconnect (state (world p1))) p1 in
  view (state (world p2)) = ([], "", false) /\
  exists p3,
    step p2 (Click Connect) p3 /\
    reachable p3 /\
    accounts (state (world p3)) = result /\
    isConnected (state (world p3)) = true.
Proof.
  intros Hreach Hp p1 p2.
  pose (waiting :=
    {| origin := Click Connect; awaiting := eth_requestAccounts;
       resume := fun o =>
         try_catch
           (bind (match o with
                  | Fulfilled v => Ret v
                  | Rejected e => Throw e
                  end)
              (fun granted =>
                 perform (setAccounts granted) ;;
                 perform (setIsConnected true) ;;
                 currentChainId <- request eth_chainId ;;
                 perform (setChainId currentChainId) ;;
                 perform (console_log [Str "Connected:"; Arr granted])))
           (fun error =>
              perform (console_log [Str "Connection error:"; Err error]))
    |}).
  assert (H1 : p1 =
    {| world := send eth_requestAccounts (world p);
       mounted := mounted p;
       inflight := inflight p ++ [waiting] |}).
  { subst p1. unfold launch, connect. rewrite Hp. reflexivity. }
  assert (Hreach2 : reachable p2).
  { apply (reachable_step p1 (Click Disconnect)); [| apply step_click].
    apply (reachable_step p (Click Connect)); [exact Hreach | apply step_click]. }
  assert (H2 : p2 =
    {| world := snd (advance (disconnect (state (world p1))) (world p1));
       mounted := mounted p1; inflight := inflight p1 |}).
  { subst p2. unfold launch, disconnect. rewrite H1. simpl. rewrite Hp.
    reflexivity. }
  assert (Hin : inflight p2 = inflight p ++ waiting :: []).
  { rewrite H2, H1. reflexivity. }
  split.
  - rewrite H2, H1. unfold disconnect. simpl. rewrite Hp. reflexivity.
  - pose proof (step_settle p2 (inflight p) waiting [] (Fulfilled result) Hin)
      as Hstep.
    eexists. split; [exact Hstep |]. split.
    + exact (reachable_step p2 _ _ Hreach2 Hstep).
    + split; reflexivity.
Qed.

Lemma disconnect_keeps_pending_connect_witness :
  exists p3,
    reachable p3 /\
    accounts (state (world p3)) = [alice] /\
    isConnected (state (world p3)) = true.
Proof.
  destruct (disconnect_keeps_pending_connect ready window_ethereum [alice]
              reachable_ready eq_refl) as (_ & p3 & _ & Hreach & Ha & Hi).
  exists p3. split; [exact Hreach |]. split; [exact Ha | exact Hi].
Defined.

(** ** The flag and the list, handler by handler *)

(** X15: as long as the wallet does not grant an empty account list, no
    handler breaks the agreement of flag and list: if the flag is true
    exactly when an account is listed before a click or a notification,
    it is so after it, whatever else the wallet answers. *)
Theorem in_sync_kept (wallet : Wallet) (w : World) :
  wallet eth_requestAccounts <> Fulfilled [] ->
  in_sync (state w) ->
  (forall a, in_sync (state (snd (run wallet (onClick a (state w)) w)))) /\
  (forall payload,
     in_sync (state (snd (run wallet (handleAccountsChanged payload) w)))) /\
  (forall payload,
     in_sync (state (snd (run wallet (handleChainChanged payload) w)))).
Proof.
  intros Hne Hsync. split; [| split].
  - intros a. apply in_sync_onClick; assumption.
  - intros payload. apply in_sync_handleAccountsChanged.
  - intros payload. apply in_sync_handleChainChanged, Hsync.
Qed.

Lemma in_sync_kept_witness :
  in_sync (state (snd (run (granting [alice] "0x1") (onClick Connect detected)
                           (boot detected)))).
Proof.
  apply (in_sync_kept (granting [alice] "0x1") (boot detected)).
  - discriminate.
  - split; [discriminate | intros H; contradiction H; reflexivity].
Defined.
